(** * Verification of [reproduce/ilharco2023editing.py]

    The script merges several fine-tuned BERT checkpoints with the
    task-arithmetic routine of the [mergecraft] library, saves the merged
    weights, evaluates them on a GLUE split and writes a JSON record.

    Everything the script computes itself is embedded here as Rocq
    functions: the choice of the model list, the output path, the record.
    Everything it delegates (imports, the [transformers] pipeline
    constructor, the merge routine, the clock, [print], saving, the
    evaluator, file I/O) is an external call.  The script is a finite tree
    of such calls, [prog]; an environment answers each call with a value or
    an exception, and [run] executes the tree against an environment and
    logs every call with its outcome. *)

From Stdlib Require Import ZArith QArith Ascii String List.
From stdpp Require Import base option list strings gmap.

Local Open Scope string_scope.
Local Open Scope Z_scope.

(** ** Python values *)

(** An exception, identified by the name of its class. *)
Definition exn := string.

(** What a call of an external routine gives back. *)
Inductive outcome (X : Type) : Type :=
| Returned (x : X)
| Raised (e : exn).
Arguments Returned {X} x.
Arguments Raised {X} e.

(** The kinds of call the script makes. *)
Inductive step : Type :=
| SImport | SPipeline | STime | SMerge | SPrint
| SSave | SEvaluate | SOpen | SDump | SClose.

#[local] Instance step_eq_dec : EqDecision step.
Proof. solve_decision. Defined.

(** The four stages of the experiment. *)
Definition is_stage (s : step) : bool :=
  match s with
  | SMerge | SSave | SEvaluate | SDump => true
  | _ => false
  end.

(** The calls into the model libraries: loading, merging, saving and
    evaluating a model. *)
Definition is_model_step (s : step) : bool :=
  match s with
  | SPipeline | SMerge | SSave | SEvaluate => true
  | _ => false
  end.

(** Whether the character [c] occurs in [s]. *)
Fixpoint has_char (c : Ascii.ascii) (s : string) : bool :=
  match s with
  | EmptyString => false
  | String a s' => Ascii.eqb a c || has_char c s'
  end.

Section Script.

(** Python floats are kept abstract: the script only subtracts two clock
    readings (line 19) and passes floats on. *)
Context {float : Type} (float_sub : float → float → float).
(** The pipeline objects of [transformers] and the file objects of [open]
    are opaque to the script. *)
Context {Pipe File : Type}.

(** What [json.dump] can be given. *)
#[warnings="-register-all"]
Inductive json : Type :=
| JStr (s : string)
| JNum (x : float)
| JObj (fields : list (string * json)).

Definition is_scalar (v : json) : bool :=
  match v with
  | JStr _ | JNum _ => true
  | JObj _ => false
  end.

(** The object returned by [evaluate_glue_pipeline]; the script reads its
    [accuracy] attribute, a mapping from metric name to number. *)
Record EvalResult : Type := { accuracy : gmap string float }.

(** ** Lines 5-13: configuration *)

Definition rte_models : list string :=
  [ "google-bert/bert-base-uncased";
    "textattack/bert-base-uncased-RTE";
    "yoshitomo-matsubara/bert-base-uncased-rte";
    "Ruizhou/bert-base-uncased-finetuned-rte";
    "howey/bert-base-uncased-rte";
    "anirudh21/bert-base-uncased-finetuned-rte" ].

Definition sst2_models : list string :=
  [ "google-bert/bert-base-uncased";
    "aviator-neural/bert-base-uncased-sst2";
    "howey/bert-base-uncased-sst2";
    "yoshitomo-matsubara/bert-base-uncased-sst2";
    "ikevin98/bert-base-uncased-finetuned-sst2";
    "TehranNLP-org/bert-base-uncased-cls-sst2" ].

(** [if DATASET == 'rte': models = [...] else: models = [...]] *)
Definition models (DATASET : string) : list string :=
  if String.eqb DATASET "rte" then rte_models else sst2_models.

(** The f-string [f'./artifacts/merged_weights_task_{DATASET}_{SPLIT}'],
    written out three times in the source (lines 22, 34 and 38). *)
Definition weights_dir (DATASET SPLIT : string) : string :=
  "./artifacts/merged_weights_task_" +:+ DATASET +:+ "_" +:+ SPLIT.

(** [f'./artifacts/merged_weights_task_{DATASET}_{SPLIT}/record.json'] *)
Definition record_path (DATASET SPLIT : string) : string :=
  "./artifacts/merged_weights_task_" +:+ DATASET +:+ "_" +:+ SPLIT
    +:+ "/record.json".

(** ** Lines 30-37: the record *)

(** A dict display is evaluated left to right: each [key: value] item is
    stored in turn, and [**m] stores every item of [m]; a key stored twice
    keeps the later value. *)
Definition dict_item (k : string) (v : json)
    (d : gmap string json) : gmap string json := <[k := v]> d.

Definition dict_spread (m : gmap string float)
    (d : gmap string json) : gmap string json := (JNum <$> m) ∪ d.

(** The five items written before [**res.accuracy]. *)
Definition record_fields (DATASET SPLIT : string) (dt : float)
    : gmap string json :=
  dict_item "time" (JNum dt)
   (dict_item "directory" (JStr (weights_dir DATASET SPLIT))
     (dict_item "split" (JStr SPLIT)
       (dict_item "dataset" (JStr DATASET)
         (dict_item "method" (JStr "task") ∅)))).

Definition record (DATASET SPLIT : string) (dt : float)
    (acc : gmap string float) : gmap string json :=
  dict_spread acc (record_fields DATASET SPLIT dt).

Definition fixed_keys : gset string :=
  {[ "method"; "dataset"; "split"; "directory"; "time" ]}.

(** ** External calls *)

(** An argument of [print]. *)
Inductive pyarg : Type :=
| AStr (s : string)
| AFloat (x : float)
| AResult (r : EvalResult).

(** The calls the script makes, indexed by the type of what they return.
    [save_pretrained p dir] stands for [p.model.save_pretrained(dir)] and
    [file_exit fp] for the [__exit__] of the [with] block, which closes
    the file. *)
Inductive callE : Type → Type :=
| import_module (name : string) : callE unit
| import_from (module name : string) : callE unit
| pipeline (task model device framework : string) : callE Pipe
| time_time : callE float
| mergecraft_task (ms : list string) (base_index : Z)
    (signs : option (list Z)) (task : string) : callE Pipe
| print (args : list pyarg) : callE unit
| save_pretrained (p : Pipe) (dir : string) : callE unit
| evaluate_glue_pipeline (p : Pipe) (dataset : string) : callE EvalResult
| open (path mode : string) : callE File
| json_dump (obj : gmap string json) (fp : File) : callE unit
| file_exit (fp : File) : callE unit.

(** ** Programs *)

(** A program is a finite tree of calls.  [Call c k] performs [c]; if [c]
    raises, the program is abandoned with that exception, otherwise [k]
    continues with the value.  [Protect c k] performs [c] and continues in
    both cases: it is what a [with] block or a [finally] clause does. *)
Inductive prog (R : Type) : Type :=
| Ret (r : R)
| Raise (e : exn)
| Call {X : Type} (c : callE X) (k : X → prog R)
| Protect {X : Type} (c : callE X) (k : outcome X → prog R).
Arguments Ret {R} r.
Arguments Raise {R} e.
Arguments Call {R X} c k.
Arguments Protect {R X} c k.

Fixpoint bind {A B : Type} (p : prog A) (f : A → prog B) : prog B :=
  match p with
  | Ret a => f a
  | Raise e => Raise e
  | Call c k => Call c (λ x, bind (k x) f)
  | Protect c k => Protect c (λ o, bind (k o) f)
  end.

#[local] Instance prog_ret : MRet prog := @Ret.
#[local] Instance prog_bind : MBind prog := λ A B f p, bind p f.

Definition call {X : Type} (c : callE X) : prog X := Call c Ret.

(** [try: p finally: cleanup].  The cleanup runs however [p] ends; an
    exception of [p] is raised again after it, unless the cleanup itself
    raises. *)
Fixpoint finally {A : Type} (p : prog A) (cleanup : prog unit) : prog A :=
  match p with
  | Ret a => bind cleanup (λ _, Ret a)
  | Raise e => bind cleanup (λ _, Raise e)
  | Call c k =>
      Protect c (λ o,
        match o with
        | Returned x => finally (k x) cleanup
        | Raised e => bind cleanup (λ _, Raise e)
        end)
  | Protect c k => Protect c (λ o, finally (k o) cleanup)
  end.

(** [with open(path, mode) as fp: body] *)
Definition with_open {A : Type} (path mode : string)
    (body : File → prog A) : prog A :=
  fp ← call (open path mode);
  finally (body fp) (call (file_exit fp)).

(** [l[i]] for a list [l], raising [IndexError] out of range. *)
Definition subscript (l : list string) (i : nat) : prog string :=
  match l !! i with
  | Some x => Ret x
  | None => Raise "IndexError"
  end.

(** ** The script *)

(** Lines 20-39, once [pipe] and [dt] are known. *)
Definition after_merge (DATASET SPLIT : string) (pipe : Pipe) (dt : float)
    : prog unit :=
  _ ← call (print [AStr "Merging completed. Time elapsed:"; AFloat dt]);
  _ ← call (save_pretrained pipe (weights_dir DATASET SPLIT));
  _ ← call (print [AStr "Evaluating the merged model"]);
  _ ← call (import_from "mergecraft" "evaluate_glue_pipeline");
  res ← call (evaluate_glue_pipeline pipe DATASET);
  _ ← call (print [AResult res]);
  _ ← call (import_module "json");
  with_open (record_path DATASET SPLIT) "w" (λ fp,
    call (json_dump (record DATASET SPLIT dt (accuracy res)) fp)).

(** Lines 17-39. *)
Definition merge_and_report (DATASET SPLIT : string) : prog unit :=
  t0 ← call time_time;
  pipe ← call (mergecraft_task (models DATASET) 0 None "text-classification");
  t1 ← call time_time;
  after_merge DATASET SPLIT pipe (float_sub t1 t0).

(** Lines 1-3. *)
Definition imports : prog unit :=
  _ ← call (import_module "time");
  _ ← call (import_module "mc");
  call (import_from "transformers" "pipeline").

(** The whole file, as a function of the two constants of lines 7-8.
    [SUBSET = None] (line 6) is never read. *)
Definition script (DATASET SPLIT : string) : prog unit :=
  _ ← imports;
  m0 ← subscript (models DATASET) 0;
  _ ← call (pipeline "text-classification" m0 "cpu" "pt");
  merge_and_report DATASET SPLIT.

(** The file as it stands: [DATASET = 'rte'], [SPLIT = 'validation']. *)
Definition main : prog unit := script "rte" "validation".

(** The script with line 15, the construction of the unmerged pipeline,
    taken out. *)
Definition script_without_line_15 (DATASET SPLIT : string) : prog unit :=
  _ ← imports;
  merge_and_report DATASET SPLIT.

(** ** Running a program *)

(** One line of the log: a call and how it ended. *)
Inductive entry : Type :=
| Called {X : Type} (c : callE X) (o : outcome X).

Definition step_of {X : Type} (c : callE X) : step :=
  match c with
  | import_module _ | import_from _ _ => SImport
  | pipeline _ _ _ _ => SPipeline
  | time_time => STime
  | mergecraft_task _ _ _ _ => SMerge
  | print _ => SPrint
  | save_pretrained _ _ => SSave
  | evaluate_glue_pipeline _ _ => SEvaluate
  | open _ _ => SOpen
  | json_dump _ _ => SDump
  | file_exit _ => SClose
  end.

Definition entry_step (en : entry) : step :=
  match en with Called c _ => step_of c end.

(** The exception an entry ended with, if it did. *)
Definition entry_raised (en : entry) : option exn :=
  match en with
  | Called _ (Raised e) => Some e
  | Called _ (Returned _) => None
  end.

Definition steps (log : list entry) : list step := entry_step <$> log.

Definition stages (log : list entry) : list step :=
  List.filter is_stage (steps log).

(** What a log says about each kind of call: the arguments of the
    pipeline constructions and of the merges, the directories weights were
    saved to, the files opened, the objects dumped, the clock readings and
    the evaluation results obtained. *)
Definition constructed (log : list entry)
    : list (string * string * string * string) :=
  omap (λ en,
    match en with
    | Called (pipeline t m d f) _ => Some (t, m, d, f)
    | _ => None
    end) log.

Definition merged (log : list entry)
    : list (list string * Z * option (list Z) * string) :=
  omap (λ en,
    match en with
    | Called (mergecraft_task ms b sg t) _ => Some (ms, b, sg, t)
    | _ => None
    end) log.

Definition saved (log : list entry) : list (Pipe * string) :=
  omap (λ en,
    match en with
    | Called (save_pretrained p d) _ => Some (p, d)
    | _ => None
    end) log.

Definition opened (log : list entry) : list (string * string) :=
  omap (λ en,
    match en with
    | Called (open path mode) _ => Some (path, mode)
    | _ => None
    end) log.

Definition dumped (log : list entry) : list (gmap string json * File) :=
  omap (λ en,
    match en with
    | Called (json_dump obj fp) _ => Some (obj, fp)
    | _ => None
    end) log.

Definition clock_readings (log : list entry) : list float :=
  omap (λ en,
    match en with
    | Called time_time (Returned t) => Some t
    | _ => None
    end) log.

Definition evaluations (log : list entry) : list EvalResult :=
  omap (λ en,
    match en with
    | Called (evaluate_glue_pipeline _ _) (Returned r) => Some r
    | _ => None
    end) log.

(** More of what a log says: the pipelines the merges returned, the
    arguments of the evaluations, the saves that returned, the files that
    [open] returned, the files closed, what was printed, and the calls
    that raised, with their kind, or for an import with its module. *)
Definition merge_results (log : list entry) : list Pipe :=
  omap (λ en,
    match en with
    | Called (mergecraft_task _ _ _ _) (Returned p) => Some p
    | _ => None
    end) log.

Definition evaluated (log : list entry) : list (Pipe * string) :=
  omap (λ en,
    match en with
    | Called (evaluate_glue_pipeline p ds) _ => Some (p, ds)
    | _ => None
    end) log.

Definition saves_done (log : list entry) : list (Pipe * string) :=
  omap (λ en,
    match en with
    | Called (save_pretrained p d) (Returned _) => Some (p, d)
    | _ => None
    end) log.

Definition files_opened (log : list entry) : list File :=
  omap (λ en,
    match en with
    | Called (open _ _) (Returned fp) => Some fp
    | _ => None
    end) log.

Definition closed (log : list entry) : list File :=
  omap (λ en,
    match en with
    | Called (file_exit fp) _ => Some fp
    | _ => None
    end) log.

Definition printed (log : list entry) : list (list pyarg) :=
  omap (λ en,
    match en with
    | Called (print args) _ => Some args
    | _ => None
    end) log.

Definition failures (log : list entry) : list (step * exn) :=
  omap (λ en, pair (entry_step en) <$> entry_raised en) log.

Definition import_failures (log : list entry) : list (string * exn) :=
  omap (λ en,
    match en with
    | Called (import_module m) (Raised e) => Some (m, e)
    | Called (import_from m _) (Raised e) => Some (m, e)
    | _ => None
    end) log.


(** ** Shapes of programs *)

(** [straight ss p]: whatever the calls return, [p] makes the calls of the
    kinds [ss], in this order, and then ends. *)
Inductive straight {R : Type} : list step → prog R → Prop :=
| straight_Ret r : straight [] (Ret r)
| straight_Raise e : straight [] (Raise e)
| straight_Call {X : Type} (c : callE X) k ss :
    (∀ x, straight ss (k x)) → straight (step_of c :: ss) (Call c k)
| straight_Protect {X : Type} (c : callE X) k ss :
    (∀ o, straight ss (k o)) → straight (step_of c :: ss) (Protect c k).

(** The seventeen calls of the script, in the order of the source. *)
Definition script_steps : list step :=
  [ SImport; SImport; SImport; SPipeline; STime; SMerge; STime; SPrint;
    SSave; SPrint; SImport; SEvaluate; SPrint; SImport; SOpen; SDump;
    SClose ].

(** Two calls that differ at most in what is printed or dumped. *)
Inductive same_call : ∀ X : Type, callE X → callE X → Prop :=
| same_call_refl {X : Type} (c : callE X) : same_call X c c
| same_call_print a1 a2 : same_call unit (print a1) (print a2)
| same_call_dump o1 o2 fp :
    same_call unit (json_dump o1 fp) (json_dump o2 fp).

(** Two programs that make the same calls and end the same way, whatever
    the calls return, and differ at most in the data printed or dumped. *)
Inductive same_control {R : Type} : prog R → prog R → Prop :=
| same_Ret r : same_control (Ret r) (Ret r)
| same_Raise e : same_control (Raise e) (Raise e)
| same_Call {X : Type} (c1 c2 : callE X) k1 k2 :
    same_call _ c1 c2 → (∀ x, same_control (k1 x) (k2 x)) →
    same_control (Call c1 k1) (Call c2 k2)
| same_Protect {X : Type} (c1 c2 : callE X) k1 k2 :
    same_call _ c1 c2 → (∀ o, same_control (k1 o) (k2 o)) →
    same_control (Protect c1 k1) (Protect c2 k2).


Section Run.

(** The world outside the script: a state and, for each call, its outcome
    and the state it leaves. *)
Context {World : Type}.
Context (env : ∀ X : Type, callE X → World → outcome X * World).

Fixpoint run {R : Type} (p : prog R) (w : World)
    : list entry * outcome R * World :=
  match p with
  | Ret r => ([], Returned r, w)
  | Raise e => ([], Raised e, w)
  | Call c k =>
      let '(o, w') := env _ c w in
      match o with
      | Returned x =>
          let '(log, res, w'') := run (k x) w' in
          (Called c o :: log, res, w'')
      | Raised e => ([Called c o], Raised e, w')
      end
  | Protect c k =>
      let '(o, w') := env _ c w in
      let '(log, res, w'') := run (k o) w' in
      (Called c o :: log, res, w'')
  end.

Definition log_of {R : Type} (p : prog R) (w : World) : list entry :=
  (run p w).1.1.


Definition result_of {R : Type} (p : prog R) (w : World) : outcome R :=
  (run p w).1.2.

End Run.

End Script.

Arguments Ret {float Pipe File R} r.
Arguments Raise {float Pipe File R} e.
Arguments Call {float Pipe File R X} c k.
Arguments Protect {float Pipe File R X} c k.
Arguments same_call {float Pipe File X} _ _.
#[local] Existing Instances prog_ret prog_bind.

(** ** Stub environments *)

(** Deterministic stand-ins for the libraries.  Floats are rationals, a
    pipeline is the list of the models loaded into it, a file is its path,
    and the world is a clock that the expensive calls advance.  [fails]
    picks the kinds of call that raise, [acc] is the accuracy mapping the
    evaluator reports. *)
Module Stub.

Definition answer {X : Type} (failing : bool) (e : exn) (x : X) (tick : Z)
    (now : Z) : outcome X * Z :=
  if failing then (Raised e, now + tick) else (Returned x, now + tick).

Definition env (fails : step → bool) (cost : step → Z)
    (acc : gmap string Q)
    (X : Type) (c : @callE Q (list string) string X) : Z → outcome X * Z :=
  match c in callE X return Z → outcome X * Z with
  | import_module _ => answer (fails SImport) "ImportError" () (cost SImport)
  | import_from _ _ => answer (fails SImport) "ImportError" () (cost SImport)
  | pipeline _ m _ _ => answer (fails SPipeline) "OSError" [m] (cost SPipeline)
  | time_time =>
      λ now, answer (fails STime) "OSError" (inject_Z now) (cost STime) now
  | mergecraft_task ms _ _ _ =>
      answer (fails SMerge) "RuntimeError" ms (cost SMerge)
  | print _ => answer (fails SPrint) "BrokenPipeError" () (cost SPrint)
  | save_pretrained _ _ => answer (fails SSave) "OSError" () (cost SSave)
  | evaluate_glue_pipeline _ _ =>
      answer (fails SEvaluate) "ValueError" {| accuracy := acc |}
        (cost SEvaluate)
  | open path _ => answer (fails SOpen) "FileNotFoundError" path (cost SOpen)
  | json_dump _ _ => answer (fails SDump) "TypeError" () (cost SDump)
  | file_exit _ => answer (fails SClose) "OSError" () (cost SClose)
  end.

Definition never : step → bool := λ _, false.
Definition only (s : step) : step → bool := λ s', bool_decide (s' = s).

(** Seconds taken by each kind of call. *)
Definition seconds : step → Z := λ s,
  match s with
  | SPipeline => 2
  | SMerge => 7
  | SSave => 1
  | SEvaluate => 3
  | _ => 0
  end.


Definition metrics : gmap string Q := {[ "accuracy" := 81 # 100 ]}.

(** An installation in which the module [missing] cannot be imported:
    everything else answers as [env never]. *)
Definition env_missing (missing : string) (cost : step → Z)
    (acc : gmap string Q)
    (X : Type) (c : @callE Q (list string) string X) : Z → outcome X * Z :=
  match c in callE X return Z → outcome X * Z with
  | import_module m =>
      answer (String.eqb m missing) "ModuleNotFoundError" () (cost SImport)
  | import_from m _ =>
      answer (String.eqb m missing) "ModuleNotFoundError" () (cost SImport)
  | c' => env never cost acc _ c'
  end.



(** The log of the file as it stands, run from time 0. *)
Definition run_main (fails : step → bool) (cost : step → Z)
    (acc : gmap string Q) : list entry :=
  log_of (env fails cost acc) (main Qminus) 0.

End Stub.

(** * Properties *)

(** ** The record *)

Section RecordFacts.

Context {float : Type}.
Implicit Types (DATASET SPLIT k : string) (dt : float).
Implicit Types (acc : gmap string float) (v : json (float := float)).

Lemma record_fields_dom DATASET SPLIT dt :
  dom (record_fields DATASET SPLIT dt) = fixed_keys.
Proof.
  unfold record_fields, dict_item, fixed_keys.
  rewrite !dom_insert_L, dom_empty_L. set_solver.
Qed.

Lemma record_fields_scalar DATASET SPLIT dt k v :
  record_fields DATASET SPLIT dt !! k = Some v → is_scalar v = true.
Proof.
  unfold record_fields, dict_item. intros Hk.
  repeat (apply lookup_insert_Some in Hk as [[_ <-]|[_ Hk]]; [done|]).
  by rewrite lookup_empty in Hk.
Qed.

(** A key of the accuracy mapping takes its value from there, any other
    key from the five items written first. *)
Lemma record_lookup DATASET SPLIT dt acc k :
  record DATASET SPLIT dt acc !! k =
    match acc !! k with
    | Some x => Some (JNum x)
    | None => record_fields DATASET SPLIT dt !! k
    end.
Proof.
  unfold record, dict_spread. rewrite lookup_union, lookup_fmap.
  destruct (acc !! k); simpl; [|by rewrite (left_id_L None _)].
  by destruct (record_fields DATASET SPLIT dt !! k).
Qed.

Lemma record_lookup_fresh DATASET SPLIT dt acc k :
  acc !! k = None →
  record DATASET SPLIT dt acc !! k = record_fields DATASET SPLIT dt !! k.
Proof. intros Hk. by rewrite record_lookup, Hk. Qed.

Lemma record_dom DATASET SPLIT dt acc :
  dom (record DATASET SPLIT dt acc) = fixed_keys ∪ dom acc.
Proof.
  unfold record, dict_spread.
  rewrite dom_union_L, dom_fmap_L, record_fields_dom.
  apply (comm_L (∪)).
Qed.

Lemma record_scalar DATASET SPLIT dt acc k v :
  record DATASET SPLIT dt acc !! k = Some v → is_scalar v = true.
Proof.
  rewrite record_lookup.
  destruct (acc !! k); [by intros [= <-]|]. apply record_fields_scalar.
Qed.

Lemma record_fields_dataset DATASET SPLIT dt :
  record_fields DATASET SPLIT dt !! "dataset" = Some (JStr DATASET).
Proof. reflexivity. Qed.

Lemma record_fields_directory DATASET SPLIT dt :
  record_fields DATASET SPLIT dt !! "directory"
  = Some (JStr (weights_dir DATASET SPLIT)).
Proof. reflexivity. Qed.

Lemma record_fields_time DATASET SPLIT dt :
  record_fields DATASET SPLIT dt !! "time" = Some (JNum dt).
Proof. reflexivity. Qed.

(** C2. A key of the accuracy mapping that is one of the five fixed names
    ends up with the accuracy mapping's value: the value the fixed item
    had stored is gone. *)
Theorem accuracy_overwrites_fixed DATASET SPLIT dt acc k x :
  k ∈ fixed_keys →
  acc !! k = Some x →
  is_Some (record_fields DATASET SPLIT dt !! k) ∧
  record DATASET SPLIT dt acc !! k = Some (JNum x).
Proof.
  intros Hk Hacc. split.
  - apply elem_of_dom. by rewrite record_fields_dom.
  - by rewrite record_lookup, Hacc.
Qed.

End RecordFacts.

(** ** The configuration *)

Lemma models_rte : models "rte" = rte_models.
Proof. reflexivity. Qed.

Lemma models_other DATASET : DATASET ≠ "rte" → models DATASET = sst2_models.
Proof.
  intros Hne. unfold models.
  destruct (String.eqb_spec DATASET "rte"); [done|reflexivity].
Qed.

Lemma models_cases DATASET :
  models DATASET = rte_models ∨ models DATASET = sst2_models.
Proof. unfold models. destruct (String.eqb DATASET "rte"); auto. Qed.

Lemma models_base DATASET :
  models DATASET !! 0%nat = Some "google-bert/bert-base-uncased".
Proof. by destruct (models_cases DATASET) as [-> | ->]. Qed.

(** ** Runs *)

Section RunFacts.

Context {float : Type} (float_sub : float → float → float).
Context {Pipe File World : Type}.
Context (env : ∀ X : Type,
  callE (float := float) (Pipe := Pipe) (File := File) X →
  World → outcome X * World).

Implicit Types (DATASET SPLIT : string) (w : World).

Abbreviation script_with sub := (script sub (Pipe := Pipe) (File := File)).
Abbreviation script := (script_with float_sub).

(** The calls of a straight program are made in its fixed order: a run
    makes an initial part of them, and all of them when it returns. *)
Lemma straight_run {R : Type} (ss : list step) (p : prog R) w :
  straight ss p →
  steps (log_of env p w) `prefix_of` ss ∧
  (∀ r, result_of env p w = Returned r → steps (log_of env p w) = ss).
Proof.
  unfold log_of, result_of, steps. intros Hp. revert w.
  induction Hp as [r|e|X c k ss _ IH|X c k ss _ IH]; intros w; simpl.
  - split; [done|done].
  - split; [done|done].
  - destruct (env X c w) as [[x|e] w'].
    + specialize (IH x w').
      destruct (run env (k x) w') as [[log res] w'']; simpl in *.
      destruct IH as [Hpre Hall]. split.
      * by apply prefix_cons.
      * intros r Hr. f_equal. eauto.
    + simpl. split; [|done].
      apply prefix_cons, prefix_nil.
  - destruct (env X c w) as [o w'].
    specialize (IH o w').
    destruct (run env (k o) w') as [[log res] w'']; simpl in *.
    destruct IH as [Hpre Hall]. split.
    + by apply prefix_cons.
    + intros r Hr. f_equal. eauto.
Qed.

Ltac straight_line :=
  unfold call; cbn;
  repeat (lazymatch goal with
          | |- straight _ (Call ?c ?k) => apply (straight_Call c k)
          | |- straight _ (Protect ?c ?k) => apply (straight_Protect c k)
          | |- straight _ (Ret ?r) => apply (straight_Ret r)
          | |- straight _ (Raise ?e) => apply (straight_Raise e)
          | o : outcome _ |- _ => destruct o; cbn
          end; intros).

Lemma script_straight DATASET SPLIT :
  straight script_steps (script DATASET SPLIT).
Proof.
  unfold script, subscript. rewrite models_base.
  unfold script_steps. straight_line.
Qed.



(** Running [p] and then [f] on its value: the logs follow each other, and
    an exception of [p] ends the run. *)
Lemma run_bind {A B : Type} (p : prog A) (f : A → prog B) w :
  run env (bind p f) w =
    match run env p w with
    | (log, Returned a, w') =>
        let '(log', res, w'') := run env (f a) w' in
        ((log ++ log')%list, res, w'')
    | (log, Raised e, w') => (log, Raised e, w')
    end.
Proof.
  revert w. induction p as [a|e|X c k IH|X c k IH]; intros w; simpl.
  - by destruct (run env (f a) w) as [[log res] w'].
  - done.
  - destruct (env X c w) as [[x|e] w']; [|done].
    rewrite IH. destruct (run env (k x) w') as [[log [a|e]] w'']; [|done].
    by destruct (run env (f a) w'') as [[log' res] w3].
  - destruct (env X c w) as [o w'].
    rewrite IH. destruct (run env (k o) w') as [[log [a|e]] w'']; [|done].
    by destruct (run env (f a) w'') as [[log' res] w3].
Qed.


Ltac run_script :=
  unfold log_of, result_of, script, script_without_line_15, subscript;
  rewrite ?models_base;
  cbn -[record weights_dir record_path models];
  repeat match goal with
    | |- context [env ?X ?c ?w] =>
        destruct (env X c w) as [[?|?] ?];
        cbn -[record weights_dir record_path models]
    end.

Lemma script_returned DATASET SPLIT w :
  result_of env (script DATASET SPLIT) w = Returned () →
  ∃ p0 t0 p t1 res fp,
    log_of env (script DATASET SPLIT) w =
      [ Called (import_module "time") (Returned ());
        Called (import_module "mc") (Returned ());
        Called (import_from "transformers" "pipeline") (Returned ());
        Called (pipeline "text-classification"
                  "google-bert/bert-base-uncased" "cpu" "pt") (Returned p0);
        Called time_time (Returned t0);
        Called (mergecraft_task (models DATASET) 0 None
                  "text-classification") (Returned p);
        Called time_time (Returned t1);
        Called (print [AStr "Merging completed. Time elapsed:";
                       AFloat (float_sub t1 t0)]) (Returned ());
        Called (save_pretrained p (weights_dir DATASET SPLIT)) (Returned ());
        Called (print [AStr "Evaluating the merged model"]) (Returned ());
        Called (import_from "mergecraft" "evaluate_glue_pipeline")
          (Returned ());
        Called (evaluate_glue_pipeline p DATASET) (Returned res);
        Called (print [AResult res]) (Returned ());
        Called (import_module "json") (Returned ());
        Called (open (record_path DATASET SPLIT) "w") (Returned fp);
        Called (json_dump
                  (record DATASET SPLIT (float_sub t1 t0) (accuracy res)) fp)
          (Returned ());
        Called (file_exit fp) (Returned ()) ].
Proof.
  run_script; try discriminate. intros _.
  repeat match goal with u : () |- _ => destruct u end.
  by eexists _, _, _, _, _, _.
Qed.

(** The arguments of the calls, in any run, failed or not. *)
Lemma script_arguments DATASET SPLIT w :
  let log := log_of env (script DATASET SPLIT) w in
  constructed log `prefix_of`
    [("text-classification", "google-bert/bert-base-uncased", "cpu", "pt")] ∧
  merged log `prefix_of`
    [(models DATASET, 0, None, "text-classification")] ∧
  Forall (λ s, s.2 = weights_dir DATASET SPLIT) (saved log) ∧
  opened log `prefix_of` [(record_path DATASET SPLIT, "w")].
Proof.
  run_script;
    (split_and!;
      [ try reflexivity; apply prefix_nil
      | try reflexivity; apply prefix_nil
      | by repeat constructor
      | try reflexivity; apply prefix_nil ]).
Qed.

(** Whatever is dumped is the record of lines 30-37, built from the two
    clock readings that enclose the merge and from the evaluation result;
    the weights were saved before, and the file was opened for it. *)
Lemma script_dumped DATASET SPLIT w obj fp :
  let log := log_of env (script DATASET SPLIT) w in
  (obj, fp) ∈ dumped log →
  ∃ t0 p t1 res rest,
    drop 4 log =
      Called time_time (Returned t0)
      :: Called (mergecraft_task (models DATASET) 0 None
                   "text-classification") (Returned p)
      :: Called time_time (Returned t1)
      :: rest ∧
    clock_readings log = [t0; t1] ∧
    evaluations log = [res] ∧
    saved log = [(p, weights_dir DATASET SPLIT)] ∧
    opened log = [(record_path DATASET SPLIT, "w")] ∧
    log !! 14%nat
      = Some (Called (open (record_path DATASET SPLIT) "w") (Returned fp)) ∧
    obj = record DATASET SPLIT (float_sub t1 t0) (accuracy res).
Proof.
  run_script; intros Hin;
    first [ by apply elem_of_nil in Hin
          | apply list_elem_of_singleton in Hin as [= -> ->];
            by eexists _, _, _, _, _ ].
Qed.

(** A call that raises ends the run with its exception, and nothing is
    called after it, the [with] block apart: the file it opened is closed
    when [json.dump] raises. *)
Lemma script_raised DATASET SPLIT w i en e :
  let log := log_of env (script DATASET SPLIT) w in
  log !! i = Some en →
  entry_raised en = Some e →
  entry_step en ≠ SDump →
  result_of env (script DATASET SPLIT) w = Raised e ∧ length log = S i.
Proof.
  run_script; intros Hi;
    repeat (destruct i as [|i]; simpl in Hi;
            [ injection Hi as <-; simpl; intros; simplify_eq; try done | ]);
    try done.
Qed.

Lemma filter_prefix {A : Type} (f : A → bool) (l1 l2 : list A) :
  l1 `prefix_of` l2 → List.filter f l1 `prefix_of` List.filter f l2.
Proof. intros [k ->]. rewrite List.filter_app. by eexists. Qed.

Lemma prefix_NoDup {A : Type} (l1 l2 : list A) :
  l1 `prefix_of` l2 → NoDup l2 → NoDup l1.
Proof. intros [k ->] Hnd. by apply NoDup_app in Hnd as [? _]. Qed.

(** The elapsed time is only ever printed and dumped: were it computed
    from the two clock readings in any other way, the script would make
    the same calls. *)
Lemma script_same_control (float_sub' : float → float → float)
    DATASET SPLIT :
  same_control (script DATASET SPLIT)
    (script_with float_sub' DATASET SPLIT).
Proof.
  unfold script, subscript. rewrite models_base.
  cbn -[record weights_dir record_path models].
  repeat (lazymatch goal with
          | |- same_control (Call _ _) (Call _ _) => apply same_Call
          | |- same_control (Protect _ _) (Protect _ _) => apply same_Protect
          | |- same_control (Ret _) (Ret _) => apply same_Ret
          | |- same_control (Raise _) (Raise _) => apply same_Raise
          | |- same_call (print _) (print _) => apply same_call_print
          | |- same_call (json_dump _ _) (json_dump _ _) =>
              apply same_call_dump
          | |- same_call _ _ => apply same_call_refl
          | |- ∀ o : outcome _, _ =>
              intros [?|?]; cbn -[record weights_dir record_path models]
          | |- ∀ _, _ => intros ?
          end).
Qed.

Lemma script_counts DATASET SPLIT w :
  let log := log_of env (script DATASET SPLIT) w in
  (length (saved log) ≤ 1)%nat ∧ (length (dumped log) ≤ 1)%nat.
Proof. run_script; split; lia. Qed.

Lemma prefix_singleton_elem {A : Type} (l : list A) (x y : A) :
  l `prefix_of` [x] → y ∈ l → y = x.
Proof.
  intros [k Hk] Hy. destruct l as [|z l]; [by apply elem_of_nil in Hy|].
  injection Hk as -> Hnil. apply eq_sym, app_eq_nil in Hnil as [-> _].
  by apply list_elem_of_singleton in Hy.
Qed.

Lemma string_app_assoc (a b c : string) : a +:+ b +:+ c = (a +:+ b) +:+ c.
Proof.
  induction a as [|x a IH]; [done|].
  change (String x (a +:+ b +:+ c) = String x ((a +:+ b) +:+ c)).
  by f_equal.
Qed.

Lemma record_path_in_weights_dir DATASET SPLIT :
  record_path DATASET SPLIT = weights_dir DATASET SPLIT +:+ "/record.json".
Proof. unfold record_path, weights_dir. by rewrite !string_app_assoc. Qed.

(** ** The claims about runs *)

(** C1. The record is one flat object.  Its keys are exactly the five
    fixed keys and the keys of the accuracy mapping; every value is a
    string or a number; what stands under ["accuracy"] is the number the
    accuracy mapping holds there (nothing when it holds none), never an
    object of its own.  In a run, the object dumped is such a record for
    the accuracy mapping of the evaluation result, and it goes to the file
    opened at [record.json]. *)
Theorem record_flat DATASET SPLIT :
  (∀ (dt : float) acc,
     dom (record DATASET SPLIT dt acc) = fixed_keys ∪ dom acc ∧
     (∀ k v, record DATASET SPLIT dt acc !! k = Some v → is_scalar v = true) ∧
     record DATASET SPLIT dt acc !! "accuracy" = JNum <$> acc !! "accuracy") ∧
  (∀ w obj fp,
     (obj, fp) ∈ dumped (log_of env (script DATASET SPLIT) w) →
     ∃ res,
       evaluations (log_of env (script DATASET SPLIT) w) = [res] ∧
       log_of env (script DATASET SPLIT) w !! 14%nat
         = Some (Called (open (record_path DATASET SPLIT) "w")
                   (Returned fp)) ∧
       dom obj = fixed_keys ∪ dom (accuracy res) ∧
       (∀ k v, obj !! k = Some v → is_scalar v = true)).
Proof.
  split.
  - intros dt acc. split_and!.
    + apply record_dom.
    + apply record_scalar.
    + rewrite record_lookup. by destruct (acc !! "accuracy").
  - intros w obj fp Hin.
    destruct (script_dumped _ _ _ _ _ Hin)
      as (t0 & p & t1 & res & rest & _ & _ & Hres & _ & _ & Hopen & ->).
    exists res. split_and!; [done|done|apply record_dom|apply record_scalar].
Qed.

(** C3, amended.  For a dataset name other than ["rte"] the selector gives
    the six SST2 identifiers: they are what is merged, and the ["dataset"]
    field of the record dumped is the name as given, unless the accuracy
    mapping has a ["dataset"] key of its own, whose number then stands
    there. *)
Theorem fallback_models DATASET SPLIT w :
  DATASET ≠ "rte" →
  models DATASET = sst2_models ∧
  length (models DATASET) = 6%nat ∧
  merged (log_of env (script DATASET SPLIT) w) `prefix_of`
    [(sst2_models, 0, None, "text-classification")] ∧
  (∀ obj fp,
     (obj, fp) ∈ dumped (log_of env (script DATASET SPLIT) w) →
     ∃ res,
       evaluations (log_of env (script DATASET SPLIT) w) = [res] ∧
       obj !! "dataset" =
         match accuracy res !! "dataset" with
         | Some x => Some (JNum x)
         | None => Some (JStr DATASET)
         end).
Proof.
  intros Hne. pose proof (models_other _ Hne) as Hm. split_and!.
  - done.
  - by rewrite Hm.
  - rewrite <- Hm. apply script_arguments.
  - intros obj fp Hin.
    destruct (script_dumped _ _ _ _ _ Hin)
      as (t0 & p & t1 & res & rest & _ & _ & Hres & _ & _ & _ & ->).
    exists res. split; [done|]. by rewrite record_lookup.
Qed.

(** C4.  For ["rte"] the selector gives the six RTE identifiers in this
    order; the first is the base model, and it is the model every run
    constructs the unmerged pipeline from.  The construction is the fourth
    call: it is made as soon as the three imports have returned. *)
Theorem rte_models_and_base SPLIT w :
  models "rte" =
    [ "google-bert/bert-base-uncased";
      "textattack/bert-base-uncased-RTE";
      "yoshitomo-matsubara/bert-base-uncased-rte";
      "Ruizhou/bert-base-uncased-finetuned-rte";
      "howey/bert-base-uncased-rte";
      "anirudh21/bert-base-uncased-finetuned-rte" ] ∧
  models "rte" !! 0%nat = Some "google-bert/bert-base-uncased" ∧
  constructed (log_of env (script "rte" SPLIT) w) `prefix_of`
    [("text-classification", "google-bert/bert-base-uncased", "cpu", "pt")] ∧
  (result_of env (imports (Pipe := Pipe) (File := File)) w = Returned () →
   constructed (log_of env (script "rte" SPLIT) w) =
    [("text-classification", "google-bert/bert-base-uncased", "cpu", "pt")]).
Proof.
  split_and!; [done|done|apply script_arguments|].
  unfold imports. run_script; by try discriminate.
Qed.

(** C5, amended.  The directory is the string
    [./artifacts/merged_weights_task_<DATASET>_<SPLIT>]; for ["rte"] and
    ["validation"] it is [./artifacts/merged_weights_task_rte_validation].
    Weights are only ever saved to it, the only file opened is its
    [record.json], and when a record is dumped its ["directory"] field is
    this string, unless the accuracy mapping has a ["directory"] key of
    its own, whose number then stands there. *)
Theorem output_directory DATASET SPLIT w :
  weights_dir DATASET SPLIT
    = "./artifacts/merged_weights_task_" +:+ DATASET +:+ "_" +:+ SPLIT ∧
  weights_dir "rte" "validation"
    = "./artifacts/merged_weights_task_rte_validation" ∧
  Forall (λ s, s.2 = weights_dir DATASET SPLIT)
    (saved (log_of env (script DATASET SPLIT) w)) ∧
  opened (log_of env (script DATASET SPLIT) w) `prefix_of`
    [(weights_dir DATASET SPLIT +:+ "/record.json", "w")] ∧
  (∀ obj fp,
     (obj, fp) ∈ dumped (log_of env (script DATASET SPLIT) w) →
     ∃ p res,
       saved (log_of env (script DATASET SPLIT) w)
         = [(p, weights_dir DATASET SPLIT)] ∧
       opened (log_of env (script DATASET SPLIT) w)
         = [(weights_dir DATASET SPLIT +:+ "/record.json", "w")] ∧
       evaluations (log_of env (script DATASET SPLIT) w) = [res] ∧
       obj !! "directory" =
         match accuracy res !! "directory" with
         | Some x => Some (JNum x)
         | None => Some (JStr (weights_dir DATASET SPLIT))
         end).
Proof.
  rewrite <- record_path_in_weights_dir.
  split_and!; [done|done|apply script_arguments|apply script_arguments|].
  intros obj fp Hin.
  destruct (script_dumped _ _ _ _ _ Hin)
    as (t0 & p & t1 & res & rest & _ & _ & Hres & Hsave & Hopen & _ & ->).
  exists p, res. split_and!; [done|done|done|]. by rewrite record_lookup.
Qed.

(** C6, amended.  When a record is dumped, the clock was read exactly
    twice, in the calls just before and just after the merge (the fifth
    and the seventh call, the merge being the sixth), and the ["time"]
    field is the difference of the two readings, unless the accuracy
    mapping has a ["time"] key of its own, whose number then stands there.
    No decision depends on the difference: were it computed from the two
    readings in any other way, the script would make the same calls and
    end the same way whatever they return, and only what is printed and
    what is dumped would differ. *)
Theorem elapsed_time DATASET SPLIT w :
  (∀ obj fp,
     (obj, fp) ∈ dumped (log_of env (script DATASET SPLIT) w) →
     ∃ t0 p t1 res rest,
       drop 4 (log_of env (script DATASET SPLIT) w) =
         Called time_time (Returned t0)
         :: Called (mergecraft_task (models DATASET) 0 None
                      "text-classification") (Returned p)
         :: Called time_time (Returned t1)
         :: rest ∧
       clock_readings (log_of env (script DATASET SPLIT) w) = [t0; t1] ∧
       evaluations (log_of env (script DATASET SPLIT) w) = [res] ∧
       obj !! "time" =
         match accuracy res !! "time" with
         | Some x => Some (JNum x)
         | None => Some (JNum (float_sub t1 t0))
         end) ∧
  (∀ float_sub' : float → float → float,
     same_control (script DATASET SPLIT)
       (script_with float_sub' DATASET SPLIT)).
Proof.
  split; [|intros; apply script_same_control].
  intros obj fp Hin.
  destruct (script_dumped _ _ _ _ _ Hin)
    as (t0 & p & t1 & res & rest & Hlog & Hclock & Hres & _ & _ & _ & ->).
  exists t0, p, t1, res, rest.
  split_and!; [done|done|done|]. by rewrite record_lookup.
Qed.

(** C7, amended.  The script is a straight line: for every dataset name
    its seventeen calls come in one fixed order, whatever they return.
    In every run the stages performed are an initial part of merge, save,
    evaluate, dump, with at most one save and at most one dump; a run
    that returns has performed all four, with exactly one save and exactly
    one dump into exactly one opened file. *)
Theorem stages_in_order DATASET SPLIT w :
  straight script_steps (script DATASET SPLIT) ∧
  stages (log_of env (script DATASET SPLIT) w) `prefix_of`
    [SMerge; SSave; SEvaluate; SDump] ∧
  (length (saved (log_of env (script DATASET SPLIT) w)) ≤ 1)%nat ∧
  (length (dumped (log_of env (script DATASET SPLIT) w)) ≤ 1)%nat ∧
  (result_of env (script DATASET SPLIT) w = Returned () →
   stages (log_of env (script DATASET SPLIT) w)
     = [SMerge; SSave; SEvaluate; SDump] ∧
   length (saved (log_of env (script DATASET SPLIT) w)) = 1%nat ∧
   length (opened (log_of env (script DATASET SPLIT) w)) = 1%nat ∧
   length (dumped (log_of env (script DATASET SPLIT) w)) = 1%nat).
Proof.
  pose proof (script_straight DATASET SPLIT) as Hs.
  split_and!; [done| |apply script_counts|apply script_counts|].
  - apply (filter_prefix is_stage _ script_steps).
    by apply straight_run.
  - intros (p0 & t0 & p & t1 & res & fp & ->)%script_returned.
    by split_and!.
Qed.

(** C8.  When loading, merging, saving or evaluating a model raises, the
    run ends with that very exception and the failing call is the last
    one of the log: nothing is caught, nothing is called afterwards.  No
    such call is made twice. *)
Theorem failures_propagate DATASET SPLIT w i en e :
  log_of env (script DATASET SPLIT) w !! i = Some en →
  entry_raised en = Some e →
  is_model_step (entry_step en) = true →
  result_of env (script DATASET SPLIT) w = Raised e ∧
  length (log_of env (script DATASET SPLIT) w) = S i ∧
  NoDup (List.filter is_model_step
           (steps (log_of env (script DATASET SPLIT) w))).
Proof.
  intros Hi Hraised Hstep.
  destruct (script_raised DATASET SPLIT w i en e) as [Hres Hlen];
    [done|done|by intros Heq; rewrite Heq in Hstep|].
  split_and!; [done|done|].
  apply (prefix_NoDup _ (List.filter is_model_step script_steps)).
  - apply filter_prefix, straight_run, script_straight.
  - by apply (bool_decide_unpack _).
Qed.

(** C9.  Both arms of the dataset switch give a list of six identifiers,
    and every merge is called with that list and base index 0, which is a
    position of the list. *)
Theorem base_index_valid DATASET SPLIT w :
  length (models DATASET) = 6%nat ∧
  (∀ ms b sg t,
     (ms, b, sg, t) ∈ merged (log_of env (script DATASET SPLIT) w) →
     ms = models DATASET ∧ b = 0 ∧
     0 ≤ b < Z.of_nat (length ms) ∧
     is_Some (ms !! Z.to_nat b)).
Proof.
  assert (length (models DATASET) = 6%nat) as Hlen
    by (by destruct (models_cases DATASET) as [-> | ->]).
  split; [done|]. intros ms b sg t Hin.
  apply (prefix_singleton_elem _ _ _
           (proj1 (proj2 (script_arguments DATASET SPLIT w)))) in Hin.
  injection Hin as -> -> _ _. split_and!; [done|done|lia|lia|].
  apply lookup_lt_is_Some. rewrite Hlen. simpl. lia.
Qed.



(** ** Further properties of runs *)

Ltac elem_of_log H :=
  first [ by apply elem_of_nil in H
        | apply list_elem_of_singleton in H; simplify_eq ].

Ltac failure_in H :=
  repeat (apply elem_of_cons in H as [H|H];
          [first [discriminate H | simplify_eq]|]);
  try (by apply elem_of_nil in H).

(** X1.  Weights are only ever saved from, and the evaluator is only ever
    given, the pipeline that the merge returned, never the one built at
    line 15; the evaluator gets the dataset name as it is, and it is
    called only once the save has returned. *)
Theorem merged_pipeline_used DATASET SPLIT w :
  (∀ p d,
     (p, d) ∈ saved (log_of env (script DATASET SPLIT) w) →
     merge_results (log_of env (script DATASET SPLIT) w) = [p]) ∧
  (∀ p ds,
     (p, ds) ∈ evaluated (log_of env (script DATASET SPLIT) w) →
     merge_results (log_of env (script DATASET SPLIT) w) = [p] ∧
     ds = DATASET ∧
     saves_done (log_of env (script DATASET SPLIT) w)
       = [(p, weights_dir DATASET SPLIT)]).
Proof.
  run_script; (split; intros ? ? Hin; elem_of_log Hin; done).
Qed.

(** X2.  Every file the script opens it closes, and it closes nothing
    else.  Once [record.json] is open, two calls remain: the dump of a
    record into that file and the closing of that file, which is made
    also when the dump raises.  The run then ends with the exception of
    the closing if it raises, and otherwise as the dump ended. *)
Theorem record_file_closed DATASET SPLIT w :
  closed (log_of env (script DATASET SPLIT) w)
    = files_opened (log_of env (script DATASET SPLIT) w) ∧
  (∀ fp,
     fp ∈ files_opened (log_of env (script DATASET SPLIT) w) →
     ∃ obj od oc,
       drop 15 (log_of env (script DATASET SPLIT) w)
         = [Called (json_dump obj fp) od; Called (file_exit fp) oc] ∧
       result_of env (script DATASET SPLIT) w
         = match oc with
           | Raised e => Raised e
           | Returned _ => od
           end).
Proof.
  run_script;
    (split; [reflexivity|]; intros fp Hin; elem_of_log Hin;
     repeat match goal with u : () |- _ => destruct u end;
     by eexists _, _, _).
Qed.

(** [try: p finally: cleanup] runs [p], then the cleanup from where [p]
    stopped; it ends as the cleanup when that raises, as [p] otherwise. *)
Lemma run_finally {A : Type} (p : prog A) (cleanup : prog unit) w :
  run env (finally p cleanup) w =
    let '(log, res, w') := run env p w in
    let '(log', res', w'') := run env cleanup w' in
    ((log ++ log')%list,
     match res' with Raised e => Raised e | Returned _ => res end,
     w'').
Proof.
  revert w. induction p as [a|e|X c k IH|X c k IH]; intros w; simpl.
  - rewrite run_bind.
    destruct (run env cleanup w) as [[log' [[]|e']] w'']; simpl;
      by rewrite ?app_nil_r.
  - rewrite run_bind.
    destruct (run env cleanup w) as [[log' [[]|e']] w'']; simpl;
      by rewrite ?app_nil_r.
  - destruct (env X c w) as [[x|e] w'].
    + rewrite IH. destruct (run env (k x) w') as [[log res] w1].
      by destruct (run env cleanup w1) as [[log' res'] w2].
    + rewrite run_bind.
      destruct (run env cleanup w') as [[log' [[]|e']] w'']; simpl;
        by rewrite ?app_nil_r.
  - destruct (env X c w) as [o w'].
    rewrite IH. destruct (run env (k o) w') as [[log res] w1].
    by destruct (run env cleanup w1) as [[log' res'] w2].
Qed.

(** X3.  The [with open(...)] block, for any body.  When [open] raises,
    the body is not run and nothing is closed.  When it returns a file,
    the log is the [open], the calls of the body, and the closing of that
    file, whether the body returned or raised; the block ends with the
    exception of the closing if it raises, and as the body otherwise. *)
Theorem run_with_open {A : Type} (path mode : string)
    (body : File → prog A) w :
  run env (with_open path mode body) w =
    match env _ (open path mode) w with
    | (Raised e, w') => ([Called (open path mode) (Raised e)], Raised e, w')
    | (Returned fp, w') =>
        let '(log, res, w1) := run env (body fp) w' in
        let '(oc, w2) := env _ (file_exit fp) w1 in
        (Called (open path mode) (Returned fp)
           :: (log ++ [Called (file_exit fp) oc])%list,
         match oc with Raised e => Raised e | Returned _ => res end,
         w2)
    end.
Proof.
  unfold with_open. cbn [mbind prog_bind bind call run].
  destruct (env File (open path mode) w) as [[fp|e] w']; [|done].
  cbn [bind]. rewrite run_finally.
  destruct (run env (body fp) w') as [[log res] w1]. unfold call. simpl.
  by destruct (env () (file_exit fp) w1) as [[[]|e] w2].
Qed.

(** X4.  When the evaluator raises, the run ends with its exception; the
    merged weights have been saved by then, and no file is opened or
    written. *)
Theorem evaluation_failure DATASET SPLIT w e :
  (SEvaluate, e) ∈ failures (log_of env (script DATASET SPLIT) w) →
  result_of env (script DATASET SPLIT) w = Raised e ∧
  (∃ p, merge_results (log_of env (script DATASET SPLIT) w) = [p] ∧
        saves_done (log_of env (script DATASET SPLIT) w)
          = [(p, weights_dir DATASET SPLIT)]) ∧
  opened (log_of env (script DATASET SPLIT) w) = [] ∧
  dumped (log_of env (script DATASET SPLIT) w) = [].
Proof.
  run_script; intros Hin; failure_in Hin;
    (split_and!; [done|by eexists|done|done]).
Qed.

(** X5.  The imports of lines 25 and 29 come late.  When
    [from mergecraft import evaluate_glue_pipeline] raises, the merge has
    been made and its weights saved, and the evaluator is never called;
    when [import json] raises, the weights are saved and the evaluation
    is done, and no file is opened.  The run ends with the exception of
    the import. *)
Theorem late_import_failure DATASET SPLIT w e :
  (("mergecraft", e)
     ∈ import_failures (log_of env (script DATASET SPLIT) w) →
   result_of env (script DATASET SPLIT) w = Raised e ∧
   (∃ p, merge_results (log_of env (script DATASET SPLIT) w) = [p] ∧
         saves_done (log_of env (script DATASET SPLIT) w)
           = [(p, weights_dir DATASET SPLIT)]) ∧
   evaluated (log_of env (script DATASET SPLIT) w) = []) ∧
  (("json", e)
     ∈ import_failures (log_of env (script DATASET SPLIT) w) →
   result_of env (script DATASET SPLIT) w = Raised e ∧
   (∃ p res,
      saves_done (log_of env (script DATASET SPLIT) w)
        = [(p, weights_dir DATASET SPLIT)] ∧
      evaluated (log_of env (script DATASET SPLIT) w) = [(p, DATASET)] ∧
      evaluations (log_of env (script DATASET SPLIT) w) = [res]) ∧
   opened (log_of env (script DATASET SPLIT) w) = []).
Proof.
  run_script;
    (split; intros Hin; failure_in Hin;
     (split_and!; [done|by eexists _ + eexists _, _|done])).
Qed.

(** X6.  When the construction of line 15, a clock reading, the merge or
    the save raises, the run ends with that exception: no save has
    returned, the evaluator is never called and no file is opened or
    written. *)
Theorem early_failure DATASET SPLIT w s e :
  s ∈ [SPipeline; STime; SMerge; SSave] →
  (s, e) ∈ failures (log_of env (script DATASET SPLIT) w) →
  result_of env (script DATASET SPLIT) w = Raised e ∧
  saves_done (log_of env (script DATASET SPLIT) w) = [] ∧
  evaluated (log_of env (script DATASET SPLIT) w) = [] ∧
  opened (log_of env (script DATASET SPLIT) w) = [] ∧
  dumped (log_of env (script DATASET SPLIT) w) = [].
Proof.
  intros Hs. revert Hs.
  run_script; intros Hs Hin; failure_in Hin; try done;
    failure_in Hs.
Qed.

(** X7.  What is printed agrees with what is recorded.  When a record is
    dumped, exactly three lines were printed: the elapsed time that the
    record is built from, the announcement of the evaluation, and the
    evaluation result whose accuracy mapping the record spreads. *)
Theorem printed_matches_record DATASET SPLIT w obj fp :
  (obj, fp) ∈ dumped (log_of env (script DATASET SPLIT) w) →
  ∃ dt res,
    printed (log_of env (script DATASET SPLIT) w)
      = [ [AStr "Merging completed. Time elapsed:"; AFloat dt];
          [AStr "Evaluating the merged model"];
          [AResult res] ] ∧
    evaluations (log_of env (script DATASET SPLIT) w) = [res] ∧
    obj = record DATASET SPLIT dt (accuracy res).
Proof.
  run_script; intros Hin; elem_of_log Hin; by eexists _, _.
Qed.

End RunFacts.

(** ** Further properties of the record and of the path *)

Section RecordWhole.

Context {float : Type}.
Implicit Types (DATASET SPLIT k : string) (dt : float).
Implicit Types (acc : gmap string float).

Lemma record_fields_size DATASET SPLIT dt :
  size (record_fields DATASET SPLIT dt) = 5%nat.
Proof.
  reflexivity.
Qed.

(** X8.  When no metric bears the name of a fixed field, the record holds
    all of both: the method ["task"], the dataset, the split, the
    directory and the elapsed time under their five names, every metric
    under its own, and five entries more than the accuracy mapping. *)
Theorem record_without_collision DATASET SPLIT dt acc :
  dom acc ## fixed_keys →
  record DATASET SPLIT dt acc !! "method" = Some (JStr "task") ∧
  record DATASET SPLIT dt acc !! "dataset" = Some (JStr DATASET) ∧
  record DATASET SPLIT dt acc !! "split" = Some (JStr SPLIT) ∧
  record DATASET SPLIT dt acc !! "directory"
    = Some (JStr (weights_dir DATASET SPLIT)) ∧
  record DATASET SPLIT dt acc !! "time" = Some (JNum dt) ∧
  (∀ k x, acc !! k = Some x →
          record DATASET SPLIT dt acc !! k = Some (JNum x)) ∧
  size (record DATASET SPLIT dt acc) = (5 + size acc)%nat.
Proof.
  intros Hdisj.
  assert (∀ k, k ∈ fixed_keys → acc !! k = None) as Hfresh.
  { intros k Hk. apply not_elem_of_dom. intros Hin. by apply (Hdisj k). }
  split_and!;
    try (rewrite record_lookup_fresh; [reflexivity|];
         apply Hfresh; unfold fixed_keys;
         rewrite !elem_of_union, !elem_of_singleton; tauto).
  - intros k x Hk. by rewrite record_lookup, Hk.
  - unfold record, dict_spread.
    rewrite map_size_disj_union, map_size_fmap, record_fields_size; [lia|].
    apply map_disjoint_dom_2. by rewrite dom_fmap_L, record_fields_dom.
Qed.

(** X9.  No metric is ever lost or changed: every key of the accuracy
    mapping is in the record with its number, whatever the fixed fields
    are.  The record has at least the five fixed entries and at most five
    more than the accuracy mapping. *)
Theorem record_keeps_metrics DATASET SPLIT dt acc :
  (∀ k x, acc !! k = Some x →
          record DATASET SPLIT dt acc !! k = Some (JNum x)) ∧
  (5 ≤ size (record DATASET SPLIT dt acc) ≤ 5 + size acc)%nat.
Proof.
  split.
  - intros k x Hk. by rewrite record_lookup, Hk.
  - assert (size fixed_keys = 5%nat) as H5.
    { rewrite <- (record_fields_dom DATASET SPLIT dt), size_dom.
      apply record_fields_size. }
    rewrite <- (size_dom (D := gset string) (record DATASET SPLIT dt acc)).
    rewrite record_dom. split.
    + rewrite <- H5. apply subseteq_size, union_subseteq_l.
    + rewrite size_union_alt, H5, <- (size_dom acc).
      apply Nat.add_le_mono_l, subseteq_size.
      intros k Hk. by apply elem_of_difference in Hk as [Hk _].
Qed.

End RecordWhole.

Lemma append_prefix_has_char c (a b a' b' : string) :
  has_char c a = false → has_char c a' = false →
  a +:+ String c b = a' +:+ String c b' → a = a' ∧ b = b'.
Proof.
  revert a'. induction a as [|x a IH]; intros [|x' a'] Ha Ha' Heq.
  - by injection Heq as ->.
  - injection Heq as <- _. simpl in Ha'. by rewrite Ascii.eqb_refl in Ha'.
  - injection Heq as -> _. simpl in Ha. by rewrite Ascii.eqb_refl in Ha.
  - injection Heq as -> Heq.
    simpl in Ha, Ha'. apply orb_false_iff in Ha as [_ Ha].
    apply orb_false_iff in Ha' as [_ Ha'].
    by destruct (IH a' Ha Ha' Heq) as [-> ->].
Qed.

(** X10.  The directory tells the dataset and the split apart when the
    dataset names have no underscore: two such configurations with the
    same directory are the same.  Without that proviso it does not:
    [a_b] with [c] and [a] with [b_c] share one directory, so the second
    run overwrites the weights and the record of the first. *)
Theorem weights_dir_separates :
  (∀ DATASET SPLIT DATASET' SPLIT',
     has_char "_"%char DATASET = false →
     has_char "_"%char DATASET' = false →
     weights_dir DATASET SPLIT = weights_dir DATASET' SPLIT' →
     DATASET = DATASET' ∧ SPLIT = SPLIT') ∧
  ¬ (∀ DATASET SPLIT DATASET' SPLIT',
       weights_dir DATASET SPLIT = weights_dir DATASET' SPLIT' →
       DATASET = DATASET' ∧ SPLIT = SPLIT').
Proof.
  split.
  - intros D S D' S' HD HD' Heq. unfold weights_dir in Heq.
    apply (inj (String.append _)) in Heq.
    by apply (append_prefix_has_char "_"%char).
  - intros Hinj.
    by destruct (Hinj "a_b" "c" "a" "b_c" eq_refl).
Qed.

(** * Concrete runs *)

(** The example of the specification: a merge of 1.23 seconds and an
    accuracy of 0.81 give a record of six keys. *)
Example record_example :
  record "rte" "validation" (123 # 100)%Q {[ "accuracy" := (81 # 100)%Q ]}
  = list_to_map
      [ ("method", JStr "task");
        ("dataset", JStr "rte");
        ("split", JStr "validation");
        ("directory", JStr "./artifacts/merged_weights_task_rte_validation");
        ("time", JNum (123 # 100)%Q);
        ("accuracy", JNum (81 # 100)%Q) ].
Proof. vm_compute. reflexivity. Qed.

(** The empty name and a misspelt one fall into the SST2 arm. *)
Example models_empty : models "" = sst2_models.
Proof. reflexivity. Qed.

Example models_typo : models "RTE" = sst2_models.
Proof. reflexivity. Qed.

Example steps_example :
  steps (Stub.run_main Stub.never Stub.seconds Stub.metrics) = script_steps.
Proof. vm_compute. reflexivity. Qed.

(** *** Witnesses *)

(** C1 at the stub run: the record dumped has the five fixed keys and
    ["accuracy"]. *)
Lemma record_flat_witness :
  (record "rte" "validation" (inject_Z 9 - inject_Z 2)%Q Stub.metrics,
   record_path "rte" "validation")
    ∈ dumped (Stub.run_main Stub.never Stub.seconds Stub.metrics) ∧
  ∃ res,
    evaluations (Stub.run_main Stub.never Stub.seconds Stub.metrics) = [res] ∧
    Stub.run_main Stub.never Stub.seconds Stub.metrics !! 14%nat
      = Some (Called (open (record_path "rte" "validation") "w")
                (Returned (record_path "rte" "validation"))) ∧
    dom (record "rte" "validation" (inject_Z 9 - inject_Z 2)%Q Stub.metrics)
      = fixed_keys ∪ dom (accuracy res) ∧
    (∀ k v,
       record "rte" "validation" (inject_Z 9 - inject_Z 2)%Q Stub.metrics
         !! k = Some v →
       is_scalar v = true).
Proof.
  assert ((record "rte" "validation" (inject_Z 9 - inject_Z 2)%Q Stub.metrics,
           record_path "rte" "validation")
            ∈ dumped (Stub.run_main Stub.never Stub.seconds Stub.metrics)) as Hin
    by (apply list_elem_of_singleton; reflexivity).
  split; [exact Hin|].
  exact (proj2 (record_flat Qminus
                  (Stub.env Stub.never Stub.seconds Stub.metrics)
                  "rte" "validation") 0 _ _ Hin).
Defined.

(** C2 at a metric called ["method"]. *)
Lemma accuracy_overwrites_fixed_witness :
  "method" ∈ fixed_keys ∧
  ({[ "method" := 1%Q ]} : gmap string Q) !! "method" = Some 1%Q ∧
  is_Some (record_fields "rte" "validation" 7%Q !! "method") ∧
  record "rte" "validation" 7%Q {[ "method" := 1%Q ]} !! "method"
    = Some (JNum 1%Q).
Proof.
  assert ("method" ∈ fixed_keys) as Hk by (vm_compute; reflexivity).
  assert (({[ "method" := 1%Q ]} : gmap string Q) !! "method" = Some 1%Q)
    as Hacc by reflexivity.
  split; [exact Hk|]. split; [exact Hacc|].
  exact (accuracy_overwrites_fixed "rte" "validation" 7%Q _ _ _ Hk Hacc).
Defined.

(** C3, amended, at the dataset name ["sst2"]. *)
Lemma fallback_models_witness :
  "sst2" ≠ "rte" ∧
  models "sst2" = sst2_models ∧
  length (models "sst2") = 6%nat ∧
  merged (log_of (Stub.env Stub.never Stub.seconds Stub.metrics)
            (script Qminus "sst2" "validation") 0) `prefix_of`
    [(sst2_models, 0, None, "text-classification")] ∧
  (∀ obj fp,
     (obj, fp) ∈ dumped (log_of (Stub.env Stub.never Stub.seconds Stub.metrics)
                           (script Qminus "sst2" "validation") 0) →
     ∃ res,
       evaluations (log_of (Stub.env Stub.never Stub.seconds Stub.metrics)
                      (script Qminus "sst2" "validation") 0) = [res] ∧
       obj !! "dataset" =
         match accuracy res !! "dataset" with
         | Some x => Some (JNum x)
         | None => Some (JStr "sst2")
         end).
Proof.
  assert ("sst2" ≠ "rte") as Hne by discriminate.
  split; [exact Hne|].
  exact (fallback_models Qminus
           (Stub.env Stub.never Stub.seconds Stub.metrics)
           "sst2" "validation" 0 Hne).
Defined.

(** C4 at the stub run, whose imports return. *)
Lemma rte_models_and_base_witness :
  result_of (Stub.env Stub.never Stub.seconds Stub.metrics) imports 0
    = Returned () ∧
  constructed (Stub.run_main Stub.never Stub.seconds Stub.metrics) =
    [("text-classification", "google-bert/bert-base-uncased", "cpu", "pt")].
Proof.
  assert (result_of (Stub.env Stub.never Stub.seconds Stub.metrics) imports 0
          = Returned ()) as Himp by reflexivity.
  split; [exact Himp|].
  exact (proj2 (proj2 (proj2
           (rte_models_and_base Qminus
              (Stub.env Stub.never Stub.seconds Stub.metrics)
              "validation" 0))) Himp).
Defined.

(** C5, amended, at the record the stub run dumps. *)
Lemma output_directory_witness :
  (record "rte" "validation" (inject_Z 9 - inject_Z 2)%Q Stub.metrics,
   record_path "rte" "validation")
    ∈ dumped (Stub.run_main Stub.never Stub.seconds Stub.metrics) ∧
  ∃ p res,
    saved (Stub.run_main Stub.never Stub.seconds Stub.metrics)
      = [(p, weights_dir "rte" "validation")] ∧
    opened (Stub.run_main Stub.never Stub.seconds Stub.metrics)
      = [(weights_dir "rte" "validation" +:+ "/record.json", "w")] ∧
    evaluations (Stub.run_main Stub.never Stub.seconds Stub.metrics) = [res] ∧
    record "rte" "validation" (inject_Z 9 - inject_Z 2)%Q Stub.metrics
      !! "directory" =
      match accuracy res !! "directory" with
      | Some x => Some (JNum x)
      | None => Some (JStr (weights_dir "rte" "validation"))
      end.
Proof.
  assert ((record "rte" "validation" (inject_Z 9 - inject_Z 2)%Q Stub.metrics,
           record_path "rte" "validation")
            ∈ dumped (Stub.run_main Stub.never Stub.seconds Stub.metrics)) as Hin
    by (apply list_elem_of_singleton; reflexivity).
  split; [exact Hin|].
  exact (proj2 (proj2 (proj2 (proj2
           (output_directory Qminus
              (Stub.env Stub.never Stub.seconds Stub.metrics)
              "rte" "validation" 0)))) _ _ Hin).
Defined.

(** C6, amended, at the record the stub run dumps: the clock is read at 2
    and at 9 seconds. *)
Lemma elapsed_time_witness :
  (record "rte" "validation" (inject_Z 9 - inject_Z 2)%Q Stub.metrics,
   record_path "rte" "validation")
    ∈ dumped (Stub.run_main Stub.never Stub.seconds Stub.metrics) ∧
  ∃ t0 p t1 res rest,
    drop 4 (Stub.run_main Stub.never Stub.seconds Stub.metrics) =
      Called time_time (Returned t0)
      :: Called (mergecraft_task (models "rte") 0 None "text-classification")
           (Returned p)
      :: Called time_time (Returned t1)
      :: rest ∧
    clock_readings (Stub.run_main Stub.never Stub.seconds Stub.metrics)
      = [t0; t1] ∧
    evaluations (Stub.run_main Stub.never Stub.seconds Stub.metrics) = [res] ∧
    record "rte" "validation" (inject_Z 9 - inject_Z 2)%Q Stub.metrics
      !! "time" =
      match accuracy res !! "time" with
      | Some x => Some (JNum x)
      | None => Some (JNum (t1 - t0)%Q)
      end.
Proof.
  assert ((record "rte" "validation" (inject_Z 9 - inject_Z 2)%Q Stub.metrics,
           record_path "rte" "validation")
            ∈ dumped (Stub.run_main Stub.never Stub.seconds Stub.metrics)) as Hin
    by (apply list_elem_of_singleton; reflexivity).
  split; [exact Hin|].
  exact (proj1 (elapsed_time Qminus
                  (Stub.env Stub.never Stub.seconds Stub.metrics)
                  "rte" "validation" 0) _ _ Hin).
Defined.

(** C7, amended, at the stub run, which returns. *)
Lemma stages_in_order_witness :
  result_of (Stub.env Stub.never Stub.seconds Stub.metrics)
    (script Qminus "rte" "validation") 0 = Returned () ∧
  stages (Stub.run_main Stub.never Stub.seconds Stub.metrics)
    = [SMerge; SSave; SEvaluate; SDump] ∧
  length (saved (Stub.run_main Stub.never Stub.seconds Stub.metrics)) = 1%nat ∧
  length (opened (Stub.run_main Stub.never Stub.seconds Stub.metrics)) = 1%nat ∧
  length (dumped (Stub.run_main Stub.never Stub.seconds Stub.metrics)) = 1%nat.
Proof.
  assert (result_of (Stub.env Stub.never Stub.seconds Stub.metrics)
            (script Qminus "rte" "validation") 0 = Returned ()) as Hres
    by (vm_compute; reflexivity).
  split; [exact Hres|].
  exact (proj2 (proj2 (proj2 (proj2
           (stages_in_order Qminus
              (Stub.env Stub.never Stub.seconds Stub.metrics)
              "rte" "validation" 0)))) Hres).
Defined.

(** C8 at a run whose merge raises: it is the sixth and last call. *)
Lemma failures_propagate_witness :
  Stub.run_main (Stub.only SMerge) Stub.seconds Stub.metrics !! 5%nat
    = Some (Called (mergecraft_task (models "rte") 0 None
                      "text-classification") (Raised "RuntimeError")) ∧
  result_of (Stub.env (Stub.only SMerge) Stub.seconds Stub.metrics)
    (script Qminus "rte" "validation") 0 = Raised "RuntimeError" ∧
  length (Stub.run_main (Stub.only SMerge) Stub.seconds Stub.metrics) = 6%nat ∧
  NoDup (List.filter is_model_step
           (steps (Stub.run_main (Stub.only SMerge) Stub.seconds Stub.metrics))).
Proof.
  assert (Stub.run_main (Stub.only SMerge) Stub.seconds Stub.metrics !! 5%nat
    = Some (Called (mergecraft_task (models "rte") 0 None
                      "text-classification") (Raised "RuntimeError"))) as Hi
    by reflexivity.
  split; [exact Hi|].
  exact (failures_propagate Qminus
           (Stub.env (Stub.only SMerge) Stub.seconds Stub.metrics)
           "rte" "validation" 0 5 _ "RuntimeError" Hi eq_refl eq_refl).
Defined.

(** C9 at the merge of the stub run. *)
Lemma base_index_valid_witness :
  (rte_models, 0, None, "text-classification")
    ∈ merged (Stub.run_main Stub.never Stub.seconds Stub.metrics) ∧
  rte_models = models "rte" ∧ 0 = 0 ∧
  0 ≤ 0 < Z.of_nat (length rte_models) ∧
  is_Some (rte_models !! Z.to_nat 0).
Proof.
  assert ((rte_models, 0, None, "text-classification")
            ∈ merged (Stub.run_main Stub.never Stub.seconds Stub.metrics)) as Hin
    by (vm_compute; constructor).
  split; [exact Hin|].
  exact (proj2 (base_index_valid Qminus
                  (Stub.env Stub.never Stub.seconds Stub.metrics)
                  "rte" "validation" 0) _ _ _ _ Hin).
Defined.




(** *** Counterexamples *)

(** C3 as stated fails when the evaluator reports a metric called
    ["dataset"]: the SST2 models are merged for the name ["sst2"], and the
    ["dataset"] field of the record dumped is the number 1, not
    ["sst2"]. *)
Lemma dataset_field_overwritten :
  "sst2" ≠ "rte" ∧
  dumped (log_of (Stub.env Stub.never Stub.seconds {[ "dataset" := 1%Q ]})
            (script Qminus "sst2" "validation") 0)
    = [(record "sst2" "validation" (9 - 2)%Q {[ "dataset" := 1%Q ]},
        record_path "sst2" "validation")] ∧
  record "sst2" "validation" (9 - 2)%Q {[ "dataset" := 1%Q ]} !! "dataset"
    = Some (JNum 1%Q) ∧
  record "sst2" "validation" (9 - 2)%Q {[ "dataset" := 1%Q ]} !! "dataset"
    ≠ Some (JStr "sst2").
Proof.
  split; [discriminate|]. split; [reflexivity|].
  rewrite record_lookup, lookup_singleton_eq. split; [reflexivity|discriminate].
Qed.

(** C5 as stated fails when the evaluator reports a metric called
    ["directory"]: the weights are saved to the directory, and the
    ["directory"] field of the record dumped is the number 1, not the
    path. *)
Lemma directory_field_overwritten :
  saved (Stub.run_main Stub.never Stub.seconds {[ "directory" := 1%Q ]})
    = [(rte_models, "./artifacts/merged_weights_task_rte_validation")] ∧
  dumped (Stub.run_main Stub.never Stub.seconds {[ "directory" := 1%Q ]})
    = [(record "rte" "validation" (9 - 2)%Q {[ "directory" := 1%Q ]},
        "./artifacts/merged_weights_task_rte_validation/record.json")] ∧
  record "rte" "validation" (9 - 2)%Q {[ "directory" := 1%Q ]} !! "directory"
    = Some (JNum 1%Q) ∧
  record "rte" "validation" (9 - 2)%Q {[ "directory" := 1%Q ]} !! "directory"
    ≠ Some (JStr "./artifacts/merged_weights_task_rte_validation").
Proof.
  split; [reflexivity|]. split; [reflexivity|].
  rewrite record_lookup, lookup_singleton_eq. split; [reflexivity|discriminate].
Qed.

(** C6 as stated fails when the evaluator reports a metric called
    ["time"]: the clock is read at 2 and at 9 seconds around the merge,
    and the ["time"] field of the record dumped is 99, not their
    difference. *)
Lemma time_field_overwritten :
  clock_readings (Stub.run_main Stub.never Stub.seconds {[ "time" := 99%Q ]})
    = [2%Q; 9%Q] ∧
  dumped (Stub.run_main Stub.never Stub.seconds {[ "time" := 99%Q ]})
    = [(record "rte" "validation" (9 - 2)%Q {[ "time" := 99%Q ]},
        record_path "rte" "validation")] ∧
  record "rte" "validation" (9 - 2)%Q {[ "time" := 99%Q ]} !! "time"
    = Some (JNum 99%Q) ∧
  record "rte" "validation" (9 - 2)%Q {[ "time" := 99%Q ]} !! "time"
    ≠ Some (JNum (9 - 2)%Q).
Proof.
  split; [reflexivity|]. split; [reflexivity|].
  rewrite record_lookup, lookup_singleton_eq. split; [reflexivity|discriminate].
Qed.

(** C7 as stated fails in a run whose merge raises: the merge is the only
    stage performed, no weights are saved and no file is written. *)
Lemma failed_merge_saves_nothing :
  result_of (Stub.env (Stub.only SMerge) Stub.seconds Stub.metrics)
    (script Qminus "rte" "validation") 0 = Raised "RuntimeError" ∧
  stages (Stub.run_main (Stub.only SMerge) Stub.seconds Stub.metrics) = [SMerge] ∧
  length (saved (Stub.run_main (Stub.only SMerge) Stub.seconds Stub.metrics))
    = 0%nat ∧
  length (dumped (Stub.run_main (Stub.only SMerge) Stub.seconds Stub.metrics))
    = 0%nat ∧
  stages (Stub.run_main (Stub.only SMerge) Stub.seconds Stub.metrics)
    ≠ [SMerge; SSave; SEvaluate; SDump].
Proof. split_and!; [by vm_compute..|]. vm_compute. discriminate. Qed.



(** *** Witnesses of the further properties *)

Lemma merged_pipeline_used_witness :
  ((rte_models, weights_dir "rte" "validation")
     ∈ saved (Stub.run_main Stub.never Stub.seconds Stub.metrics) ∧
   merge_results (Stub.run_main Stub.never Stub.seconds Stub.metrics)
     = [rte_models]) ∧
  ((rte_models, "rte")
     ∈ evaluated (Stub.run_main Stub.never Stub.seconds Stub.metrics) ∧
   merge_results (Stub.run_main Stub.never Stub.seconds Stub.metrics)
     = [rte_models] ∧
   "rte" = "rte" ∧
   saves_done (Stub.run_main Stub.never Stub.seconds Stub.metrics)
     = [(rte_models, weights_dir "rte" "validation")]).
Proof.
  assert ((rte_models, weights_dir "rte" "validation")
            ∈ saved (Stub.run_main Stub.never Stub.seconds Stub.metrics))
    as Hs by (apply list_elem_of_singleton; reflexivity).
  assert ((rte_models, "rte")
            ∈ evaluated (Stub.run_main Stub.never Stub.seconds Stub.metrics))
    as He by (apply list_elem_of_singleton; reflexivity).
  pose proof (merged_pipeline_used Qminus
                (Stub.env Stub.never Stub.seconds Stub.metrics)
                "rte" "validation" 0) as [H1 H2].
  split; [split; [exact Hs|exact (H1 _ _ Hs)]
         |split; [exact He|exact (H2 _ _ He)]].
Defined.

Lemma record_file_closed_witness :
  record_path "rte" "validation"
    ∈ files_opened (Stub.run_main Stub.never Stub.seconds Stub.metrics) ∧
  ∃ obj od oc,
    drop 15 (Stub.run_main Stub.never Stub.seconds Stub.metrics)
      = [Called (json_dump obj (record_path "rte" "validation")) od;
         Called (file_exit (record_path "rte" "validation")) oc] ∧
    result_of (Stub.env Stub.never Stub.seconds Stub.metrics)
      (script Qminus "rte" "validation") 0
      = match oc with
        | Raised e => Raised e
        | Returned _ => od
        end.
Proof.
  assert (record_path "rte" "validation"
            ∈ files_opened
                (Stub.run_main Stub.never Stub.seconds Stub.metrics))
    as Hin by (apply list_elem_of_singleton; reflexivity).
  split; [exact Hin|].
  exact (proj2 (record_file_closed Qminus
                  (Stub.env Stub.never Stub.seconds Stub.metrics)
                  "rte" "validation" 0) _ Hin).
Defined.

Lemma evaluation_failure_witness :
  (SEvaluate, "ValueError")
    ∈ failures (Stub.run_main (Stub.only SEvaluate) Stub.seconds Stub.metrics) ∧
  result_of (Stub.env (Stub.only SEvaluate) Stub.seconds Stub.metrics)
    (script Qminus "rte" "validation") 0 = Raised "ValueError" ∧
  (∃ p,
     merge_results
       (Stub.run_main (Stub.only SEvaluate) Stub.seconds Stub.metrics) = [p] ∧
     saves_done
       (Stub.run_main (Stub.only SEvaluate) Stub.seconds Stub.metrics)
       = [(p, weights_dir "rte" "validation")]) ∧
  opened (Stub.run_main (Stub.only SEvaluate) Stub.seconds Stub.metrics) = [] ∧
  dumped (Stub.run_main (Stub.only SEvaluate) Stub.seconds Stub.metrics) = [].
Proof.
  assert ((SEvaluate, "ValueError")
            ∈ failures (Stub.run_main (Stub.only SEvaluate) Stub.seconds
                          Stub.metrics))
    as Hin by (apply list_elem_of_singleton; reflexivity).
  split; [exact Hin|].
  exact (evaluation_failure Qminus
           (Stub.env (Stub.only SEvaluate) Stub.seconds Stub.metrics)
           "rte" "validation" 0 _ Hin).
Defined.

Lemma late_import_failure_witness :
  (("mergecraft", "ModuleNotFoundError")
     ∈ import_failures
         (log_of (Stub.env_missing "mergecraft" Stub.seconds Stub.metrics)
            (script Qminus "rte" "validation") 0) ∧
   saves_done
     (log_of (Stub.env_missing "mergecraft" Stub.seconds Stub.metrics)
        (script Qminus "rte" "validation") 0)
     = [(rte_models, weights_dir "rte" "validation")] ∧
   evaluated
     (log_of (Stub.env_missing "mergecraft" Stub.seconds Stub.metrics)
        (script Qminus "rte" "validation") 0) = []) ∧
  (("json", "ModuleNotFoundError")
     ∈ import_failures
         (log_of (Stub.env_missing "json" Stub.seconds Stub.metrics)
            (script Qminus "rte" "validation") 0) ∧
   evaluated
     (log_of (Stub.env_missing "json" Stub.seconds Stub.metrics)
        (script Qminus "rte" "validation") 0) = [(rte_models, "rte")] ∧
   opened
     (log_of (Stub.env_missing "json" Stub.seconds Stub.metrics)
        (script Qminus "rte" "validation") 0) = []).
Proof.
  assert (("mergecraft", "ModuleNotFoundError")
     ∈ import_failures
         (log_of (Stub.env_missing "mergecraft" Stub.seconds Stub.metrics)
            (script Qminus "rte" "validation") 0))
    as Hm by (apply list_elem_of_singleton; reflexivity).
  assert (("json", "ModuleNotFoundError")
     ∈ import_failures
         (log_of (Stub.env_missing "json" Stub.seconds Stub.metrics)
            (script Qminus "rte" "validation") 0))
    as Hj by (apply list_elem_of_singleton; reflexivity).
  destruct (proj1 (late_import_failure Qminus
              (Stub.env_missing "mergecraft" Stub.seconds Stub.metrics)
              "rte" "validation" 0 _) Hm) as (_ & _ & Hev).
  destruct (proj2 (late_import_failure Qminus
              (Stub.env_missing "json" Stub.seconds Stub.metrics)
              "rte" "validation" 0 _) Hj) as (_ & _ & Hop).
  split; [split; [exact Hm|split; [reflexivity|exact Hev]]
         |split; [exact Hj|split; [reflexivity|exact Hop]]].
Defined.

Lemma early_failure_witness :
  SMerge ∈ [SPipeline; STime; SMerge; SSave] ∧
  (SMerge, "RuntimeError")
    ∈ failures (Stub.run_main (Stub.only SMerge) Stub.seconds Stub.metrics) ∧
  result_of (Stub.env (Stub.only SMerge) Stub.seconds Stub.metrics)
    (script Qminus "rte" "validation") 0 = Raised "RuntimeError" ∧
  saves_done (Stub.run_main (Stub.only SMerge) Stub.seconds Stub.metrics) = [] ∧
  evaluated (Stub.run_main (Stub.only SMerge) Stub.seconds Stub.metrics) = [] ∧
  opened (Stub.run_main (Stub.only SMerge) Stub.seconds Stub.metrics) = [] ∧
  dumped (Stub.run_main (Stub.only SMerge) Stub.seconds Stub.metrics) = [].
Proof.
  assert (SMerge ∈ [SPipeline; STime; SMerge; SSave]) as Hs
    by (do 2 apply list_elem_of_further; apply list_elem_of_here).
  assert ((SMerge, "RuntimeError")
            ∈ failures (Stub.run_main (Stub.only SMerge) Stub.seconds
                          Stub.metrics))
    as Hin by (apply list_elem_of_singleton; reflexivity).
  split; [exact Hs|]. split; [exact Hin|].
  exact (early_failure Qminus
           (Stub.env (Stub.only SMerge) Stub.seconds Stub.metrics)
           "rte" "validation" 0 _ _ Hs Hin).
Defined.

Lemma printed_matches_record_witness :
  (record "rte" "validation" (inject_Z 9 - inject_Z 2)%Q Stub.metrics,
   record_path "rte" "validation")
    ∈ dumped (Stub.run_main Stub.never Stub.seconds Stub.metrics) ∧
  ∃ dt res,
    printed (Stub.run_main Stub.never Stub.seconds Stub.metrics)
      = [ [AStr "Merging completed. Time elapsed:"; AFloat dt];
          [AStr "Evaluating the merged model"];
          [AResult res] ] ∧
    evaluations (Stub.run_main Stub.never Stub.seconds Stub.metrics)
      = [res] ∧
    record "rte" "validation" (inject_Z 9 - inject_Z 2)%Q Stub.metrics
      = record "rte" "validation" dt (accuracy res).
Proof.
  assert ((record "rte" "validation" (inject_Z 9 - inject_Z 2)%Q Stub.metrics,
           record_path "rte" "validation")
            ∈ dumped (Stub.run_main Stub.never Stub.seconds Stub.metrics))
    as Hin by (apply list_elem_of_singleton; reflexivity).
  split; [exact Hin|].
  exact (printed_matches_record Qminus
           (Stub.env Stub.never Stub.seconds Stub.metrics)
           "rte" "validation" 0 _ _ Hin).
Defined.

Lemma record_without_collision_witness :
  dom Stub.metrics ## fixed_keys ∧
  record "rte" "validation" 7%Q Stub.metrics !! "method"
    = Some (JStr "task") ∧
  record "rte" "validation" 7%Q Stub.metrics !! "dataset"
    = Some (JStr "rte") ∧
  record "rte" "validation" 7%Q Stub.metrics !! "split"
    = Some (JStr "validation") ∧
  record "rte" "validation" 7%Q Stub.metrics !! "directory"
    = Some (JStr (weights_dir "rte" "validation")) ∧
  record "rte" "validation" 7%Q Stub.metrics !! "time" = Some (JNum 7%Q) ∧
  (∀ k x, Stub.metrics !! k = Some x →
          record "rte" "validation" 7%Q Stub.metrics !! k
            = Some (JNum x)) ∧
  size (record "rte" "validation" 7%Q Stub.metrics)
    = (5 + size Stub.metrics)%nat.
Proof.
  assert (dom Stub.metrics ## fixed_keys) as Hd.
  { unfold Stub.metrics, fixed_keys. rewrite dom_singleton_L.
    intros k ->%elem_of_singleton Hk.
    rewrite !elem_of_union, !elem_of_singleton in Hk.
    repeat destruct Hk as [Hk|Hk]; discriminate Hk. }
  split; [exact Hd|].
  exact (record_without_collision "rte" "validation" 7%Q Stub.metrics Hd).
Defined.

Lemma record_keeps_metrics_witness :
  Stub.metrics !! "accuracy" = Some (81 # 100)%Q ∧
  record "rte" "validation" 7%Q Stub.metrics !! "accuracy"
    = Some (JNum (81 # 100)%Q).
Proof.
  assert (Stub.metrics !! "accuracy" = Some (81 # 100)%Q) as Hk
    by reflexivity.
  split; [exact Hk|].
  exact (proj1 (record_keeps_metrics "rte" "validation" 7%Q Stub.metrics)
           _ _ Hk).
Defined.

Lemma weights_dir_separates_witness :
  has_char "_"%char "rte" = false ∧
  has_char "_"%char "rte" = false ∧
  weights_dir "rte" "validation" = weights_dir "rte" "validation" ∧
  "rte" = "rte" ∧ "validation" = "validation".
Proof.
  split; [reflexivity|]. split; [reflexivity|]. split; [reflexivity|].
  exact (proj1 weights_dir_separates "rte" "validation" "rte" "validation"
           eq_refl eq_refl eq_refl).
Defined.
